(** * check-permission.py: an exec data source answering one permission query

    Shallow embedding of
    [docs/research/examples/custom-sources/python/check-permission.py]
    and the properties of its request/response protocol.

    The script reads one JSON request from standard input, resolves the
    operator, looks the requested permission up in the [PERMISSIONS] table
    and prints a one-row table as JSON.  Everything happens inside one
    [try] block with two [except] clauses.  The embedding keeps that shape:
    Python values are an inductive type, the body of [main] is written in a
    small monad that threads the two output streams and distinguishes a
    normal return, a raised exception and [SystemExit]. *)

From Stdlib Require Import ZArith Ascii String SpecFloat.
From stdpp Require Import base option list strings pretty gmap.

Local Open Scope Z_scope.
Set Warnings "-register-all".

(** ** Python values *)

Module Py.

(** The values [json.load] can produce.  A [dict] is kept as an association
    list in insertion order, which is also the order [json.dumps] writes. *)
Inductive pyval : Type :=
| PyNone
| PyBool (b : bool)
| PyInt (n : Z)
| PyFloat (f : spec_float)
| PyStr (s : string)
| PyList (l : list pyval)
| PyDict (d : list (string * pyval)).

(** [type(v).__name__] *)
Definition type_name (v : pyval) : string :=
  match v with
  | PyNone => "NoneType"
  | PyBool _ => "bool"
  | PyInt _ => "int"
  | PyFloat _ => "float"
  | PyStr _ => "str"
  | PyList _ => "list"
  | PyDict _ => "dict"
  end.

(** [bool(v)]: what [if not v] tests. *)
Definition truthy (v : pyval) : bool :=
  match v with
  | PyNone => false
  | PyBool b => b
  | PyInt n => negb (n =? 0)
  | PyFloat (S754_zero _) => false
  | PyFloat _ => true
  | PyStr s => negb (String.eqb s "")
  | PyList l => match l with [] => false | _ => true end
  | PyDict d => match d with [] => false | _ => true end
  end.

(** [isinstance(v, dict)] *)
Definition is_dict (v : pyval) : bool :=
  match v with
  | PyDict _ => true
  | _ => false
  end.

(** Lists and dicts define no [__hash__]. *)
Definition hashable (v : pyval) : bool :=
  match v with
  | PyList _ | PyDict _ => false
  | _ => true
  end.

(** Key lookup in a dict whose keys are strings. *)
Fixpoint dict_lookup (d : list (string * pyval)) (key : string) : option pyval :=
  match d with
  | [] => None
  | (k, v) :: rest => if String.eqb k key then Some v else dict_lookup rest key
  end.

(** [x in l] for a list [l] of [str]: [x == y] for some element [y].  A value
    that is not a [str] compares unequal to every [str]. *)
Definition contains (l : list string) (x : pyval) : bool :=
  match x with
  | PyStr s => existsb (String.eqb s) l
  | _ => false
  end.

(** The exceptions that can occur in the script, each with its [str(e)].
    All derive from [Exception].  [json.load] raises [JSONDecodeError] on
    text that is not JSON, [UnicodeDecodeError] when the stream cannot
    decode its bytes and [RecursionError] on a document nested too deep;
    the script's own method calls raise the last two. *)
Inductive exn : Type :=
| JSONDecodeError (detail : string)
| UnicodeDecodeError (detail : string)
| RecursionError (detail : string)
| AttributeError (detail : string)
| TypeError (detail : string).

Definition exn_str (e : exn) : string :=
  match e with
  | JSONDecodeError d | UnicodeDecodeError d | RecursionError d
  | AttributeError d | TypeError d => d
  end.

(** [isinstance(e, json.JSONDecodeError)] *)
Definition is_JSONDecodeError (e : exn) : bool :=
  match e with
  | JSONDecodeError _ => true
  | _ => false
  end.

(** [isinstance(e, Exception)] *)
Definition is_Exception (e : exn) : bool := true.

(** ** Streams, outcomes and the interpreter monad *)

Definition newline : string := String (Ascii.ascii_of_nat 10) "".

Record streams : Type := { stdout : string; stderr : string }.

Definition no_output : streams := {| stdout := ""; stderr := "" |}.

(** A statement returns, raises an [Exception], or raises [SystemExit],
    which is a [BaseException] that [except Exception] lets through. *)
Inductive outcome (A : Type) : Type :=
| Return (a : A)
| Raise (e : exn)
| SysExit (code : Z).
Arguments Return {A} a.
Arguments Raise {A} e.
Arguments SysExit {A} code.

Definition M (A : Type) : Type := streams → streams * outcome A.

#[export] Instance M_ret : MRet M := λ A a s, (s, Return a).

#[export] Instance M_bind : MBind M := λ A B k m s,
  match m s with
  | (s', Return a) => k a s'
  | (s', Raise e) => (s', Raise e)
  | (s', SysExit c) => (s', SysExit c)
  end.

Definition raise {A} (e : exn) : M A := λ s, (s, Raise e).

(** [sys.exit(code)] *)
Definition sys_exit {A} (code : Z) : M A := λ s, (s, SysExit code).

(** [print(text)] *)
Definition print (text : string) : M unit := λ s,
  ({| stdout := stdout s +:+ text +:+ newline; stderr := stderr s |}, Return tt).

(** [print(text, file=sys.stderr)] *)
Definition print_err (text : string) : M unit := λ s,
  ({| stdout := stdout s; stderr := stderr s +:+ text +:+ newline |}, Return tt).

(** The result of a library call that either returns or raises. *)
Definition lift {A} (r : A + exn) : M A :=
  match r with
  | inl a => mret a
  | inr e => raise e
  end.

(** One [except C as e: handler] clause. *)
Record except_clause (A : Type) : Type :=
  { matches : exn → bool; handler : exn → M A }.
Arguments matches {A} _ _.
Arguments handler {A} _ _.

(** The first clause whose class matches handles the exception. *)
Fixpoint dispatch {A} (clauses : list (except_clause A)) (e : exn) : M A :=
  match clauses with
  | [] => raise e
  | c :: rest => if matches c e then handler c e else dispatch rest e
  end.

(** [try: body  except ...: ...] *)
Definition try_except {A} (body : M A) (clauses : list (except_clause A)) : M A :=
  λ s, match body s with
       | (s', Raise e) => dispatch clauses e s'
       | r => r
       end.

(** The message of the [AttributeError] for a missing [get] method. *)
Definition no_get (v : pyval) : string :=
  "'" +:+ type_name v +:+ "' object has no attribute 'get'".

(** [v.get(key, default)]; only a dict has the method. *)
Definition get (v : pyval) (key : string) (dflt : pyval) : M pyval :=
  match v with
  | PyDict d => mret (default dflt (dict_lookup d key))
  | _ => raise (AttributeError (no_get v))
  end.

End Py.

Import Py.

(** ** The script *)

(** [PERMISSIONS], the simulated permission database: the entries of the
    dict literal, inserted in source order. *)
Definition PERMISSIONS : gmap string (list string) :=
  <["charlie" := ["prod-db-read"]]>
  (<["bob" := ["prod-db-read"; "deploy-staging"; "deploy-prod"]]>
  (<["alice" := ["prod-db-read"; "prod-db-write"; "deploy-staging"]]> ∅)).

(** The message of the [TypeError] for a key that cannot be hashed, as
    CPython words it up to version 3.13. *)
Definition unhashable (v : pyval) : string :=
  "unhashable type: '" +:+ type_name v +:+ "'".

(** [store.get(operator, [])] on a dict with [str] keys.  The key is hashed
    first, which fails for a list or a dict; a hashable key that is not a
    [str] equals no key of the store. *)
Definition store_get (store : gmap string (list string)) (operator : pyval)
  : M (list string) :=
  match operator with
  | PyStr o => mret (default [] (store !! o))
  | PyList _ | PyDict _ =>
      raise (TypeError (unhashable operator))
  | _ => mret []
  end.

(** Lines 43-44: the permission set of the operator, then membership. *)
Definition resolve (store : gmap string (list string)) (operator permission : pyval)
  : M bool :=
  user_perms ← store_get store operator;
  mret (contains user_perms permission).

(** Line 37: [env.get("operator", os.environ.get("USER", "unknown"))]. *)
Definition resolve_operator (environ : gmap string string) (env : pyval) : M pyval :=
  get env "operator" (PyStr (default "unknown" (environ !! "USER"))).

(** Lines 39-41. *)
Definition validate (permission : pyval) : M unit :=
  if negb (truthy permission)
  then print_err "Missing 'permission' in query";; sys_exit 1
  else mret tt.

(** The dict literal of lines 46-53. *)
Definition response (operator permission : pyval) (allowed : bool) : pyval :=
  PyDict
    [("columns", PyList [PyStr "operator"; PyStr "permission"; PyStr "allowed"]);
     ("rows", PyList [PyDict [("operator", operator);
                              ("permission", permission);
                              ("allowed", PyBool allowed)]])].

Section Script.

(** The two functions of the [json] module the script calls.  [json_load]
    takes the content of standard input and returns the decoded value or
    the exception [json.load(sys.stdin)] raised; [json_dumps] serialises a
    value. *)
Variable json_load : string → pyval + exn.
Variable json_dumps : pyval → string.

(** Lines 32-53, the body of the [try] block. *)
Definition main_body (stdin : string) (environ : gmap string string) : M unit :=
  input_data ← lift (json_load stdin);
  query ← get input_data "query" (PyDict []);
  env ← get input_data "env" (PyDict []);
  permission ← get query "permission" PyNone;
  operator ← resolve_operator environ env;
  validate permission;;
  allowed ← resolve PERMISSIONS operator permission;
  print (json_dumps (response operator permission allowed)).

(** Lines 55-57. *)
Definition on_decode_error : except_clause unit :=
  {| matches := is_JSONDecodeError;
     handler := λ e, print_err ("Invalid JSON input: " +:+ exn_str e);; sys_exit 1 |}.

(** Lines 58-60. *)
Definition on_exception : except_clause unit :=
  {| matches := is_Exception;
     handler := λ e, print_err ("Error: " +:+ exn_str e);; sys_exit 1 |}.

(** Lines 30-60. *)
Definition main (stdin : string) (environ : gmap string string) : M unit :=
  try_except (main_body stdin environ) [on_decode_error; on_exception].

End Script.

(** What the host observes of one invocation. *)
Record result : Type := { out : string; err : string; exit_code : Z }.

(** Lines 62-63: run [main] on empty streams.  A normal return exits with
    0, [SystemExit(code)] with [code]; an exception that escapes [main]
    ends the interpreter with status 1. *)
Definition run (json_load : string → pyval + exn) (json_dumps : pyval → string)
    (stdin : string) (environ : gmap string string) : result :=
  let '(s, o) := main json_load json_dumps stdin environ no_output in
  {| out := stdout s;
     err := stderr s;
     exit_code := match o with
                  | Return _ => 0
                  | SysExit code => code
                  | Raise _ => 1
                  end |}.

(** ** A concrete [json] module for running the script

    The properties below hold for every decoder and encoder.  To run the
    script on concrete requests, [Demo] supplies an encoder that follows
    [json.dumps] with its default separators and [ensure_ascii], and a
    decoder given by its value on a handful of request texts. *)

Module Demo.

Definition dquote : Ascii.ascii := Ascii.ascii_of_nat 34.
Definition backslash : Ascii.ascii := Ascii.ascii_of_nat 92.

(** Request texts are written with apostrophes in place of double quotes. *)
Fixpoint json_text (s : string) : string :=
  match s with
  | EmptyString => EmptyString
  | String c rest =>
      String (if Ascii.eqb c "'"%char then dquote else c) (json_text rest)
  end.

Definition hex_digit (n : N) : Ascii.ascii :=
  Ascii.ascii_of_N (if (n <? 10)%N then 48 + n else 87 + n)%N.

(** One character inside a JSON string, as [ensure_ascii] writes it;
    characters are read as code points below 256. *)
Definition escape_char (c : Ascii.ascii) : string :=
  let n := Ascii.N_of_ascii c in
  let esc (x : Ascii.ascii) := String backslash (String x "") in
  if (n =? 34)%N then esc dquote
  else if (n =? 92)%N then esc backslash
  else if (n =? 8)%N then esc "b"%char
  else if (n =? 9)%N then esc "t"%char
  else if (n =? 10)%N then esc "n"%char
  else if (n =? 12)%N then esc "f"%char
  else if (n =? 13)%N then esc "r"%char
  else if ((32 <=? n) && (n <=? 126))%N then String c ""
  else esc "u"%char +:+ "00" +:+ String (hex_digit (n / 16)) (String (hex_digit (n mod 16)) "").

Fixpoint escape (s : string) : string :=
  match s with
  | EmptyString => EmptyString
  | String c rest => escape_char c +:+ escape rest
  end.

Definition quote (s : string) : string :=
  String dquote (escape s) +:+ String dquote "".

Fixpoint zero_pad (width : nat) (digits : string) : string :=
  match width with
  | O => digits
  | S w => if bool_decide (String.length digits < S w)%nat
           then "0" +:+ zero_pad w digits
           else digits
  end.

(** A float: the tokens of [json.dumps] for zeros, infinities and NaN; a
    finite non-zero [m * 2^e] by its exact decimal expansion, where
    [json.dumps] writes the shortest decimal that reads back to it. *)
Definition float_text (f : spec_float) : string :=
  match f with
  | S754_zero s => if s then "-0.0" else "0.0"
  | S754_infinity s => if s then "-Infinity" else "Infinity"
  | S754_nan => "NaN"
  | S754_finite s m e =>
      (if s then "-" else "") +:+
      (if 0 <=? e then pretty (Z.pos m * 2 ^ e) +:+ ".0"
       else let scaled := Z.pos m * 5 ^ (- e) in
            pretty (scaled / 10 ^ (- e)) +:+ "." +:+
            zero_pad (Z.to_nat (- e)) (pretty (scaled mod 10 ^ (- e))))
  end.

Fixpoint dumps (v : pyval) : string :=
  match v with
  | PyNone => "null"
  | PyBool b => if b then "true" else "false"
  | PyInt n => pretty n
  | PyFloat f => float_text f
  | PyStr s => quote s
  | PyList l =>
      "[" +:+
      (fix items (l : list pyval) : string :=
         match l with
         | [] => ""
         | [x] => dumps x
         | x :: rest => dumps x +:+ ", " +:+ items rest
         end) l +:+ "]"
  | PyDict d =>
      "{" +:+
      (fix members (d : list (string * pyval)) : string :=
         match d with
         | [] => ""
         | [(k, x)] => quote k +:+ ": " +:+ dumps x
         | (k, x) :: rest => quote k +:+ ": " +:+ dumps x +:+ ", " +:+ members rest
         end) d +:+ "}"
  end.

(** A request object with the given [query] and [env] entries. *)
Definition request (query env : pyval) : pyval :=
  PyDict [("query", query); ("env", env)].

(** The decoder on the request texts used below. *)
Definition decoded : list (string * (pyval + exn)) :=
  [ (json_text "{'query':{'permission':'prod-db-write'},'env':{'operator':'alice'}}",
     inl (request (PyDict [("permission", PyStr "prod-db-write")])
                  (PyDict [("operator", PyStr "alice")])));
    (json_text "{'query':{'permission':'prod-db-write'},'env':{'operator':'charlie'}}",
     inl (request (PyDict [("permission", PyStr "prod-db-write")])
                  (PyDict [("operator", PyStr "charlie")])));
    (json_text "{'query':{'permission':'prod-db-read'},'env':{'operator':'mallory'}}",
     inl (request (PyDict [("permission", PyStr "prod-db-read")])
                  (PyDict [("operator", PyStr "mallory")])));
    (json_text "{'query':{},'env':{'operator':'alice'}}",
     inl (request (PyDict []) (PyDict [("operator", PyStr "alice")])));
    (json_text "{'query':{'permission':''},'env':{'operator':'alice'}}",
     inl (request (PyDict [("permission", PyStr "")])
                  (PyDict [("operator", PyStr "alice")])));
    (json_text "{'query':{'permission':'deploy-prod'}}",
     inl (PyDict [("query", PyDict [("permission", PyStr "deploy-prod")])]));
    (json_text "{'query':{'permission':'prod-db-read'},'env':[]}",
     inl (request (PyDict [("permission", PyStr "prod-db-read")]) (PyList [])));
    (json_text "{'query':{'permission':'prod-db-read'},'env':{'operator':['alice']}}",
     inl (request (PyDict [("permission", PyStr "prod-db-read")])
                  (PyDict [("operator", PyList [PyStr "alice"])])));
    (json_text "{'query':{},'env':[]}",
     inl (request (PyDict []) (PyList [])));
    (json_text "{'query':{'permission':''},'env':[]}",
     inl (request (PyDict [("permission", PyStr "")]) (PyList [])));
    ("[1, 2]", inl (PyList [PyInt 1; PyInt 2]));
    ("42", inl (PyInt 42));
    ("not-a-document",
     inr (JSONDecodeError "Expecting value: line 1 column 1 (char 0)")) ].

Fixpoint assoc {A} (table : list (string * A)) (key : string) : option A :=
  match table with
  | [] => None
  | (k, a) :: rest => if String.eqb k key then Some a else assoc rest key
  end.

Definition load (stdin : string) : pyval + exn :=
  default (inr (JSONDecodeError "Expecting value: line 1 column 1 (char 0)"))
          (assoc decoded stdin).

End Demo.


(** ** Vocabulary of the properties *)

(** The operator as the specification words it: the request's
    [env.operator] if present, else the [USER] variable of the process
    environment if set, else the literal ["unknown"]. *)
Definition operator_chain (requested : option pyval) (user : option string) : pyval :=
  match requested with
  | Some v => v
  | None =>
      match user with
      | Some u => PyStr u
      | None => PyStr "unknown"
      end
  end.

(** The permission list the store holds for an operator value; only a
    string can be a key of the store. *)
Definition granted_to (store : gmap string (list string)) (operator : pyval)
  : list string :=
  match operator with
  | PyStr o => default [] (store !! o)
  | _ => []
  end.

(** [d.get(key, {})] on a request dict. *)
Definition entry (d : list (string * pyval)) (key : string) : pyval :=
  default (PyDict []) (dict_lookup d key).

(** The two shapes an invocation can end in: one response document on
    standard output and exit code 0, or one diagnostic line on the error
    stream and exit code 1. *)
Definition success (json_dumps : pyval → string)
    (operator permission : pyval) (allowed : bool) : result :=
  {| out := json_dumps (response operator permission allowed) +:+ newline;
     err := "";
     exit_code := 0 |}.

Definition failure (diagnostic : string) : result :=
  {| out := ""; err := diagnostic +:+ newline; exit_code := 1 |}.

(** Three sentences of the specification read for every request object,
    with no condition on its [env] entry.  Each is refuted below and
    proved with the condition added. *)

(** A request whose [query] holds a non-empty [permission] is answered
    with a response document and exit code 0. *)
Definition success_path_unconditional
    (json_load : string → pyval + exn) (json_dumps : pyval → string)
    (stdin : string) (environ : gmap string string) : Prop :=
  ∀ d q p,
    json_load stdin = inl (PyDict d) →
    entry d "query" = PyDict q →
    dict_lookup q "permission" = Some p →
    truthy p = true →
    ∃ o a, run json_load json_dumps stdin environ = success json_dumps o p a.

(** A request whose [query] has no [permission] entry is rejected with the
    fixed diagnostic. *)
Definition missing_permission_unconditional
    (json_load : string → pyval + exn) (json_dumps : pyval → string)
    (stdin : string) (environ : gmap string string) : Prop :=
  ∀ d q,
    json_load stdin = inl (PyDict d) →
    entry d "query" = PyDict q →
    dict_lookup q "permission" = None →
    run json_load json_dumps stdin environ = failure "Missing 'permission' in query".

(** A request whose [permission] is the empty string is rejected with the
    fixed diagnostic. *)
Definition empty_permission_unconditional
    (json_load : string → pyval + exn) (json_dumps : pyval → string)
    (stdin : string) (environ : gmap string string) : Prop :=
  ∀ d q,
    json_load stdin = inl (PyDict d) →
    entry d "query" = PyDict q →
    dict_lookup q "permission" = Some (PyStr "") →
    run json_load json_dumps stdin environ = failure "Missing 'permission' in query".


(** An input that is not text: the single byte [0xff], which the UTF-8
    stream of standard input cannot decode.  [json.load] fails in
    [sys.stdin.read()], before any JSON is parsed. *)
Module Malformed.

Definition invalid_utf8 : string := String (Ascii.ascii_of_nat 255) "".

Definition load (stdin : string) : pyval + exn :=
  if String.eqb stdin invalid_utf8
  then inr (UnicodeDecodeError
              "'utf-8' codec can't decode byte 0xff in position 0: invalid start byte")
  else Demo.load stdin.

End Malformed.

(** [isinstance(v, str)] *)
Definition is_str (v : pyval) : bool :=
  match v with
  | PyStr _ => true
  | _ => false
  end.

(** The (operator, permission) pairs of the [PERMISSIONS] literal, lines
    24-28, row by row. *)
Definition grants : list (string * string) :=
  [ ("alice", "prod-db-read"); ("alice", "prod-db-write"); ("alice", "deploy-staging");
    ("bob", "prod-db-read"); ("bob", "deploy-staging"); ("bob", "deploy-prod");
    ("charlie", "prod-db-read") ].

(** More request texts for the decoder: requests with entries of other
    types and with entries the script does not read. *)
Module Edge.

Definition decoded : list (string * (pyval + exn)) :=
  [ (Demo.json_text "{'query':[],'env':{'operator':'alice'}}",
     inl (Demo.request (PyList []) (PyDict [("operator", PyStr "alice")])));
    (Demo.json_text "{'query':{'permission':'prod-db-read'},'env':'alice'}",
     inl (Demo.request (PyDict [("permission", PyStr "prod-db-read")]) (PyStr "alice")));
    (Demo.json_text "{'query':{},'env':{'operator':['alice']}}",
     inl (Demo.request (PyDict []) (PyDict [("operator", PyList [PyStr "alice"])])));
    (Demo.json_text "{'query':{'permission':0},'env':{'operator':'alice'}}",
     inl (Demo.request (PyDict [("permission", PyInt 0)])
                       (PyDict [("operator", PyStr "alice")])));
    (Demo.json_text "{'query':{'permission':5},'env':{'operator':'alice'}}",
     inl (Demo.request (PyDict [("permission", PyInt 5)])
                       (PyDict [("operator", PyStr "alice")])));
    (Demo.json_text "{'query':{'permission':'prod-db-read'},'env':{'operator':null}}",
     inl (Demo.request (PyDict [("permission", PyStr "prod-db-read")])
                       (PyDict [("operator", PyNone)])));
    (Demo.json_text
       "{'id':7,'query':{'permission':'prod-db-write','limit':10},'env':{'trace':true,'operator':'alice'}}",
     inl (PyDict [("id", PyInt 7);
                  ("query", PyDict [("permission", PyStr "prod-db-write");
                                    ("limit", PyInt 10)]);
                  ("env", PyDict [("trace", PyBool true);
                                  ("operator", PyStr "alice")])])) ].

Definition load (stdin : string) : pyval + exn :=
  default (Demo.load stdin) (Demo.assoc decoded stdin).

End Edge.

(** ** Properties *)

(** *** The interpreter monad *)

Section Monad.

Context {A B : Type}.

Lemma bind_return (m : M A) (k : A → M B) s s' a :
  m s = (s', Return a) → (m ≫= k) s = k a s'.
Proof. intros H. unfold mbind, M_bind. by rewrite H. Qed.

Lemma bind_raise (m : M A) (k : A → M B) s s' e :
  m s = (s', Raise e) → (m ≫= k) s = (s', Raise e).
Proof. intros H. unfold mbind, M_bind. by rewrite H. Qed.

Lemma bind_exit (m : M A) (k : A → M B) s s' c :
  m s = (s', SysExit c) → (m ≫= k) s = (s', SysExit c).
Proof. intros H. unfold mbind, M_bind. by rewrite H. Qed.

Lemma try_return (m : M A) clauses s s' a :
  m s = (s', Return a) → try_except m clauses s = (s', Return a).
Proof. intros H. unfold try_except. by rewrite H. Qed.

Lemma try_exit (m : M A) clauses s s' c :
  m s = (s', SysExit c) → try_except m clauses s = (s', SysExit c).
Proof. intros H. unfold try_except. by rewrite H. Qed.

Lemma try_raise (m : M A) clauses s s' e :
  m s = (s', Raise e) → try_except m clauses s = dispatch clauses e s'.
Proof. intros H. unfold try_except. by rewrite H. Qed.

End Monad.

(** [get] on a dict returns and leaves the streams alone. *)
Lemma get_dict d key dflt s :
  get (PyDict d) key dflt s = (s, Return (default dflt (dict_lookup d key))).
Proof. reflexivity. Qed.

(** [get] on anything else raises [AttributeError]. *)
Lemma get_not_dict v key dflt s :
  is_dict v = false →
  get v key dflt s = (s, Raise (AttributeError (no_get v))).
Proof. by destruct v. Qed.

Lemma is_dict_true v : is_dict v = true → ∃ d, v = PyDict d.
Proof. destruct v; try done. by eexists. Qed.

(** Membership in a list of strings, computed and as a proposition. *)
Lemma existsb_eqb_elem_of (p : string) (l : list string) :
  existsb (String.eqb p) l = bool_decide (p ∈ l).
Proof.
  induction l as [|x l IH].
  - symmetry. apply bool_decide_eq_false_2, not_elem_of_nil.
  - cbn [existsb]. rewrite IH. destruct (String.eqb_spec p x) as [->|Hne].
    + symmetry. apply bool_decide_eq_true_2, list_elem_of_here.
    + apply bool_decide_ext. rewrite elem_of_cons.
      split; [by right | by intros [?|?]].
Qed.

(** *** The permission resolver *)

(** C1.  For every store, operator string [o] and permission string [p],
    the resolution step returns, without raising or printing, whether [p]
    is a member of the list the store holds for [o], the empty list when
    [o] is not a key of the store. *)
Theorem resolve_membership (store : gmap string (list string)) (o p : string) s :
  resolve store (PyStr o) (PyStr p) s
  = (s, Return (bool_decide (p ∈ default [] (store !! o)))).
Proof.
  unfold resolve. erewrite bind_return by reflexivity.
  simpl. by rewrite existsb_eqb_elem_of.
Qed.

(** An operator that is a string never makes the lookup fail. *)
Lemma resolve_hashable store operator permission s :
  hashable operator = true →
  resolve store operator permission s
  = (s, Return (contains (granted_to store operator) permission)).
Proof. by destruct operator. Qed.

(** A list or dict as operator cannot be hashed. *)
Lemma resolve_unhashable store operator permission s :
  hashable operator = false →
  resolve store operator permission s
  = (s, Raise (TypeError (unhashable operator))).
Proof. by destruct operator. Qed.

(** *** Operator resolution *)

(** The nested defaults of line 37 spell the fallback chain. *)
Lemma nested_default_chain (requested : option pyval) (user : option string) :
  default (PyStr (default "unknown" user)) requested = operator_chain requested user.
Proof. by destruct requested, user. Qed.

Lemma resolve_operator_dict (environ : gmap string string)
    (e : list (string * pyval)) s :
  resolve_operator environ (PyDict e) s
  = (s, Return (operator_chain (dict_lookup e "operator") (environ !! "USER"))).
Proof. unfold resolve_operator. by rewrite get_dict, nested_default_chain. Qed.

(** C5.  The operator is resolved by the ordered fallback chain: when the
    request's [env] mapping has an [operator] entry, line 37 returns its
    value whatever the process environment holds; otherwise it returns the
    [USER] variable of the process environment when that is set; otherwise
    the literal ["unknown"].  It neither raises nor prints. *)
Theorem resolve_operator_chain (environ : gmap string string)
    (e : list (string * pyval)) s :
  resolve_operator environ (PyDict e) s
  = (s, Return
          match dict_lookup e "operator" with
          | Some v => v
          | None =>
              match environ !! "USER" with
              | Some user => PyStr user
              | None => PyStr "unknown"
              end
          end).
Proof. apply resolve_operator_dict. Qed.

(** *** Whole invocations *)

Section Invocation.

Variable json_load : string → pyval + exn.
Variable json_dumps : pyval → string.

Local Abbreviation run := (run json_load json_dumps).
Local Abbreviation main_body := (main_body json_load json_dumps).
Local Abbreviation success := (success json_dumps).

(** How an invocation ends, given how the [try] block ends. *)
Lemma run_body_return stdin environ s :
  main_body stdin environ no_output = (s, Return tt) →
  run stdin environ = {| out := stdout s; err := stderr s; exit_code := 0 |}.
Proof. intros H. unfold run, main. by erewrite try_return by exact H. Qed.

Lemma run_body_exit stdin environ s c :
  main_body stdin environ no_output = (s, SysExit c) →
  run stdin environ = {| out := stdout s; err := stderr s; exit_code := c |}.
Proof. intros H. unfold run, main. by erewrite try_exit by exact H. Qed.

Lemma run_body_raise stdin environ s e :
  main_body stdin environ no_output = (s, Raise e) →
  run stdin environ =
    {| out := stdout s;
       err := stderr s +:+
              (if is_JSONDecodeError e then "Invalid JSON input: " else "Error: ")
              +:+ exn_str e +:+ newline;
       exit_code := 1 |}.
Proof.
  intros H. unfold run, main. erewrite try_raise by exact H.
  destruct e; reflexivity.
Qed.

(** The [try] block, stage by stage.  Nothing is printed before the
    request has been read in full, so every exception leaves the streams
    as they were. *)

Lemma body_load_raise stdin environ s e :
json_load stdin = inr e →
main_body stdin environ s = (s, Raise e).
Proof. intros H. unfold main_body. by rewrite H. Qed.

Lemma body_not_object stdin environ s v :
json_load stdin = inl v →
is_dict v = false →
main_body stdin environ s = (s, Raise (AttributeError (no_get v))).
Proof.
  intros H Hv. unfold main_body. rewrite H.
  erewrite bind_return by reflexivity.
  by erewrite bind_raise by by apply get_not_dict.
Qed.

Lemma body_query_not_dict stdin environ s d :
json_load stdin = inl (PyDict d) →
is_dict (entry d "query") = false →
main_body stdin environ s
= (s, Raise (AttributeError (no_get (entry d "query")))).
Proof.
  intros H Hq. unfold main_body. rewrite H.
  do 3 (erewrite bind_return by reflexivity).
  by erewrite bind_raise by by apply get_not_dict.
Qed.

Lemma body_env_not_dict stdin environ s d q :
json_load stdin = inl (PyDict d) →
entry d "query" = PyDict q →
is_dict (entry d "env") = false →
main_body stdin environ s
= (s, Raise (AttributeError (no_get (entry d "env")))).
Proof.
  intros H Hq He. unfold main_body. rewrite H.
  do 3 (erewrite bind_return by reflexivity).
  unfold entry in Hq. rewrite Hq.
  erewrite bind_return by reflexivity.
  by erewrite bind_raise by by apply get_not_dict.
Qed.

Lemma body_request stdin environ s d q e o p :
json_load stdin = inl (PyDict d) →
entry d "query" = PyDict q →
entry d "env" = PyDict e →
default PyNone (dict_lookup q "permission") = p →
operator_chain (dict_lookup e "operator") (environ !! "USER") = o →
main_body stdin environ s
= (validate p;;
   allowed ← resolve PERMISSIONS o p;
   print (json_dumps (response o p allowed))) s.
Proof.
  intros H Hq He <- <-. unfold main_body. rewrite H.
  do 3 (erewrite bind_return by reflexivity).
  unfold entry in Hq, He. rewrite Hq, He.
  erewrite bind_return by reflexivity.
  by erewrite bind_return by apply resolve_operator_dict.
Qed.

Lemma body_missing stdin environ s d q e p :
json_load stdin = inl (PyDict d) →
entry d "query" = PyDict q →
entry d "env" = PyDict e →
default PyNone (dict_lookup q "permission") = p →
truthy p = false →
main_body stdin environ s
= ({| stdout := stdout s;
      stderr := stderr s +:+ "Missing 'permission' in query" +:+ newline |},
   SysExit 1).
Proof.
  intros H Hq He Hp Hfalse.
  erewrite body_request by done.
  unfold validate. by rewrite Hfalse.
Qed.

Lemma body_unhashable stdin environ s d q e o p :
json_load stdin = inl (PyDict d) →
entry d "query" = PyDict q →
entry d "env" = PyDict e →
default PyNone (dict_lookup q "permission") = p →
operator_chain (dict_lookup e "operator") (environ !! "USER") = o →
truthy p = true →
hashable o = false →
main_body stdin environ s = (s, Raise (TypeError (unhashable o))).
Proof.
  intros H Hq He Hp Ho Htrue Hhash.
  erewrite body_request by done.
  unfold validate. rewrite Htrue. cbn [negb].
  erewrite bind_return by reflexivity.
  by erewrite bind_raise by by apply resolve_unhashable.
Qed.

Lemma body_success stdin environ s d q e o p :
json_load stdin = inl (PyDict d) →
entry d "query" = PyDict q →
entry d "env" = PyDict e →
default PyNone (dict_lookup q "permission") = p →
operator_chain (dict_lookup e "operator") (environ !! "USER") = o →
truthy p = true →
hashable o = true →
main_body stdin environ s
= ({| stdout :=
        stdout s +:+
        json_dumps (response o p (contains (granted_to PERMISSIONS o) p)) +:+ newline;
      stderr := stderr s |},
   Return tt).
Proof.
  intros H Hq He Hp Ho Htrue Hhash.
  erewrite body_request by done.
  unfold validate. rewrite Htrue. cbn [negb].
  erewrite bind_return by reflexivity.
  by erewrite bind_return by by apply resolve_hashable.
Qed.

(** Every way the [try] block can end. *)
Lemma body_cases stdin environ s :
(∃ e, main_body stdin environ s = (s, Raise e) ∧
      (is_JSONDecodeError e = true → json_load stdin = inr e))
∨ main_body stdin environ s
  = ({| stdout := stdout s;
        stderr := stderr s +:+ "Missing 'permission' in query" +:+ newline |},
     SysExit 1)
∨ (∃ o p a, truthy p = true ∧
            main_body stdin environ s
            = ({| stdout := stdout s +:+ json_dumps (response o p a) +:+ newline;
                  stderr := stderr s |},
               Return tt)).
Proof.
  destruct (json_load stdin) as [v|ex] eqn:Hload.
  2: { left. exists ex. split; [by apply body_load_raise | done]. }
  destruct (is_dict v) eqn:Hv.
  2: { left. eexists. split; [by apply body_not_object | done]. }
  apply is_dict_true in Hv as [d ->].
  destruct (is_dict (entry d "query")) eqn:Hq.
  2: { left. eexists. split; [by apply body_query_not_dict | done]. }
  apply is_dict_true in Hq as [q Hq].
  destruct (is_dict (entry d "env")) eqn:He.
  2: { left. eexists. split; [by eapply body_env_not_dict | done]. }
  apply is_dict_true in He as [e He].
  destruct (truthy (default PyNone (dict_lookup q "permission"))) eqn:Hp.
  2: { right; left. by eapply body_missing. }
  destruct (hashable (operator_chain (dict_lookup e "operator") (environ !! "USER")))
    eqn:Ho.
  - right; right. do 3 eexists. split; [exact Hp | by eapply body_success].
  - left. eexists. split; [by eapply body_unhashable | done].
Qed.

(** An exception is raised before anything is printed. *)
Lemma body_raise_silent stdin environ s s' e :
main_body stdin environ s = (s', Raise e) → s' = s.
Proof.
  intros H.
  destruct (body_cases stdin environ s) as [(e' & H' & _)|[H'|(o & p & a & _ & H')]];
    rewrite H' in H; congruence.
Qed.

(** The same stages, as the host sees them. *)

Lemma run_exception stdin environ s e :
main_body stdin environ no_output = (s, Raise e) →
is_JSONDecodeError e = false →
run stdin environ = failure ("Error: " +:+ exn_str e).
Proof.
  intros H He. pose proof (body_raise_silent _ _ _ _ _ H) as ->.
  erewrite run_body_raise by exact H. by rewrite He.
Qed.

Lemma run_missing stdin environ d q e p :
json_load stdin = inl (PyDict d) →
entry d "query" = PyDict q →
entry d "env" = PyDict e →
default PyNone (dict_lookup q "permission") = p →
truthy p = false →
run stdin environ = failure "Missing 'permission' in query".
Proof. intros. by erewrite run_body_exit by by eapply body_missing. Qed.

Lemma run_success stdin environ d q e o p :
json_load stdin = inl (PyDict d) →
entry d "query" = PyDict q →
entry d "env" = PyDict e →
default PyNone (dict_lookup q "permission") = p →
operator_chain (dict_lookup e "operator") (environ !! "USER") = o →
truthy p = true →
hashable o = true →
run stdin environ = success o p (contains (granted_to PERMISSIONS o) p).
Proof. intros. by erewrite run_body_return by by eapply body_success. Qed.

(** An invocation ends in exactly one of four ways. *)
Lemma run_cases stdin environ :
(∃ o p a, truthy p = true ∧ run stdin environ = success o p a)
∨ run stdin environ = failure "Missing 'permission' in query"
∨ (∃ detail, json_load stdin = inr (JSONDecodeError detail) ∧
             run stdin environ = failure ("Invalid JSON input: " +:+ detail))
∨ (∃ detail, run stdin environ = failure ("Error: " +:+ detail)).
Proof.
  destruct (body_cases stdin environ no_output)
    as [(e & H & Hdec)|[H|(o & p & a & Hp & H)]].
  - destruct (is_JSONDecodeError e) eqn:He.
    + right; right; left. destruct e; try done.
      exists detail. split; [by apply Hdec|].
      by erewrite run_body_raise by exact H.
    + right; right; right. eexists. by eapply run_exception.
  - right; left. by erewrite run_body_exit by exact H.
  - left. exists o, p, a. split; [done|].
    by erewrite run_body_return by exact H.
Qed.

End Invocation.

(** *** The protocol *)

Section Protocol.

Variable json_load : string → pyval + exn.
Variable json_dumps : pyval → string.

Local Abbreviation run := (run json_load json_dumps).
Local Abbreviation main := (main json_load json_dumps).
Local Abbreviation main_body := (main_body json_load json_dumps).
Local Abbreviation success := (success json_dumps).

(** C2, amended.  When the input parses as an object, its [query] is a
    mapping whose [permission] is present and non-empty (truthy), its
    [env] is absent or a mapping, and the resolved operator can be hashed
    (it is not an array or an object), the process writes to standard
    output exactly one document, [json.dumps] of
    [{"columns": ["operator", "permission", "allowed"], "rows": [r]}]
    where [r] holds the resolved operator, the requested permission and
    the computed boolean in that key order, followed by a newline; it
    writes nothing to the error stream and exits with code 0. *)
Theorem success_response stdin environ d q e p o :
json_load stdin = inl (PyDict d) →
entry d "query" = PyDict q →
dict_lookup q "permission" = Some p →
truthy p = true →
entry d "env" = PyDict e →
operator_chain (dict_lookup e "operator") (environ !! "USER") = o →
hashable o = true →
run stdin environ
= {| out :=
       json_dumps
         (PyDict
            [("columns", PyList [PyStr "operator"; PyStr "permission"; PyStr "allowed"]);
             ("rows",
              PyList [PyDict [("operator", o);
                              ("permission", p);
                              ("allowed",
                               PyBool (contains (granted_to PERMISSIONS o) p))]])])
       +:+ newline;
     err := "";
     exit_code := 0 |}.
Proof.
  intros Hload Hq Hp Htrue He Ho Hhash.
  eapply run_success; try done. by rewrite Hp.
Qed.

(** C3, amended.  When the input parses as an object whose [query] mapping
    has no [permission] entry, the process exits with code 1 and writes
    nothing to standard output, whatever else the input holds; when in
    addition [env] is absent or a mapping, the error stream holds the fixed
    diagnostic [Missing 'permission' in query]. *)
Theorem missing_permission_exit stdin environ d q :
json_load stdin = inl (PyDict d) →
entry d "query" = PyDict q →
dict_lookup q "permission" = None →
(exit_code (run stdin environ) = 1 ∧ out (run stdin environ) = "")
∧ (∀ e, entry d "env" = PyDict e →
        run stdin environ
        = {| out := "";
             err := "Missing 'permission' in query" +:+ newline;
             exit_code := 1 |}).
Proof.
  intros Hload Hq Hp.
  assert (Hmissing : ∀ e, entry d "env" = PyDict e →
            run stdin environ = failure "Missing 'permission' in query").
  { intros e He. eapply run_missing; try done. by rewrite Hp. }
  split; [|exact Hmissing].
  destruct (is_dict (entry d "env")) eqn:He.
  - apply is_dict_true in He as [e He]. by rewrite (Hmissing e He).
  - pose proof (body_env_not_dict _ json_dumps _ environ no_output _ _ Hload Hq He)
      as Hbody.
    by rewrite (run_exception _ _ _ _ _ _ Hbody eq_refl).
Qed.

(** A [JSONDecodeError] is handled by the first clause. *)
Lemma decode_error_exit stdin environ detail :
json_load stdin = inr (JSONDecodeError detail) →
run stdin environ
= {| out := "";
     err := "Invalid JSON input: " +:+ detail +:+ newline;
     exit_code := 1 |}.
Proof.
  intros Hload.
  by erewrite run_body_raise by by apply body_load_raise.
Qed.


(** C6.  For an operator [o] that is not a key of the permission store and
    every permission [p], the resolution step returns [false] and raises
    nothing, for every store; and when a request resolves to such an
    operator, the process still emits the normal response, with
    [allowed] false, writes nothing to the error stream and exits with
    code 0. *)
Theorem unknown_operator_denied (o : string) (p : pyval) :
(∀ (store : gmap string (list string)) s,
   store !! o = None → resolve store (PyStr o) p s = (s, Return false))
∧ (PERMISSIONS !! o = None →
   ∀ stdin environ d q e,
     json_load stdin = inl (PyDict d) →
     entry d "query" = PyDict q →
     dict_lookup q "permission" = Some p →
     truthy p = true →
     entry d "env" = PyDict e →
     operator_chain (dict_lookup e "operator") (environ !! "USER") = PyStr o →
     run stdin environ
     = {| out := json_dumps (response (PyStr o) p false) +:+ newline;
          err := "";
          exit_code := 0 |}).
Proof.
  split.
  - intros store s Hnone. rewrite resolve_hashable by done.
    cbn [granted_to]. rewrite Hnone. by destruct p.
  - intros Hnone stdin environ d q e Hload Hq Hp Htrue He Ho.
    assert (Hdflt : default PyNone (dict_lookup q "permission") = p) by by rewrite Hp.
    rewrite (run_success _ json_dumps _ _ _ _ _ _ _ Hload Hq He Hdflt Ho Htrue eq_refl).
    cbn [granted_to]. rewrite Hnone. by destruct p.
Qed.

(** C7.  An exception raised in the [try] block that is not a
    [JSONDecodeError] is caught by the last clause: [main] prints
    [Error: ] followed by the exception's text on the error stream and
    raises [SystemExit(1)], with nothing on standard output.  No exception
    escapes [main].  Hence an invocation that exits with code 0 has written
    one response document to standard output and nothing else. *)
Theorem failures_exit_one stdin environ :
(∀ s e,
   main_body stdin environ no_output = (s, Raise e) →
   is_JSONDecodeError e = false →
   main stdin environ no_output
   = ({| stdout := ""; stderr := "Error: " +:+ exn_str e +:+ newline |}, SysExit 1)
   ∧ run stdin environ
     = {| out := ""; err := "Error: " +:+ exn_str e +:+ newline; exit_code := 1 |})
∧ (∀ s e, main stdin environ no_output ≠ (s, Raise e))
∧ (exit_code (run stdin environ) = 0 →
   ∃ o p a,
     run stdin environ
     = {| out := json_dumps (response o p a) +:+ newline;
          err := "";
          exit_code := 0 |}).
Proof.
  split; [|split].
  - intros s e Hbody He.
    pose proof (body_raise_silent _ _ _ _ _ _ _ Hbody) as ->.
    split; [|by eapply run_exception].
    unfold main. erewrite try_raise by exact Hbody.
    by destruct e.
  - intros s e. unfold main.
    destruct (body_cases json_load json_dumps stdin environ no_output)
      as [(e' & H & _)|[H|(o & p & a & _ & H)]].
    + erewrite try_raise by exact H. by destruct e'.
    + by erewrite try_exit by exact H.
    + by erewrite try_return by exact H.
  - intros Hzero.
    destruct (run_cases json_load json_dumps stdin environ)
      as [(o & p & a & _ & H)|[H|[(detail & _ & H)|(detail & H)]]];
      rewrite H in Hzero; try done.
    by exists o, p, a.
Qed.

(** C8.  Two invocations that read the same standard input, in process
    environments that agree on [USER], end the same way: the same bytes on
    standard output, the same bytes on the error stream, the same exit
    code. *)
Theorem same_input_same_result stdin1 stdin2 (environ1 environ2 : gmap string string) :
stdin1 = stdin2 →
environ1 !! "USER" = environ2 !! "USER" →
run stdin1 environ1 = run stdin2 environ2.
Proof.
  intros -> Huser.
  unfold run, main, main_body, resolve_operator.
  by rewrite Huser.
Qed.

(** C9, amended.  When the input parses as an object whose [query] mapping
    holds the empty string as [permission], the process exits with code 1
    and writes nothing to standard output; when in addition [env] is absent
    or a mapping, the error stream holds the fixed diagnostic
    [Missing 'permission' in query].  In every case the invocation ends
    exactly as one whose [query] has no [permission] entry and whose [env]
    entry is the same. *)
Theorem empty_permission_exit stdin environ d q :
json_load stdin = inl (PyDict d) →
entry d "query" = PyDict q →
dict_lookup q "permission" = Some (PyStr "") →
(exit_code (run stdin environ) = 1 ∧ out (run stdin environ) = "")
∧ (∀ e, entry d "env" = PyDict e →
        run stdin environ
        = {| out := "";
             err := "Missing 'permission' in query" +:+ newline;
             exit_code := 1 |})
∧ (∀ stdin' d' q',
     json_load stdin' = inl (PyDict d') →
     entry d' "query" = PyDict q' →
     dict_lookup q' "permission" = None →
     entry d' "env" = entry d "env" →
     run stdin' environ = run stdin environ).
Proof.
  intros Hload Hq Hp.
  assert (Hmissing : ∀ e, entry d "env" = PyDict e →
            run stdin environ = failure "Missing 'permission' in query").
  { intros e He. eapply run_missing; try done. by rewrite Hp. }
  destruct (is_dict (entry d "env")) eqn:He.
  - apply is_dict_true in He as [e He].
    split; [by rewrite (Hmissing e He)|]. split; [exact Hmissing|].
    intros stdin' d' q' Hload' Hq' Hp' He'. rewrite He in He'.
    rewrite (Hmissing e He). eapply run_missing; try done. by rewrite Hp'.
  - pose proof (body_env_not_dict _ json_dumps _ environ no_output _ _ Hload Hq He)
      as Hbody.
    rewrite (run_exception _ _ _ _ _ _ Hbody eq_refl).
    split; [done|]. split; [intros e He'; by rewrite He' in He|].
    intros stdin' d' q' Hload' Hq' Hp' He'. rewrite <- He' in He.
    pose proof (body_env_not_dict _ json_dumps _ environ no_output _ _ Hload' Hq' He)
      as Hbody'.
    rewrite (run_exception _ _ _ _ _ _ Hbody' eq_refl). by rewrite He'.
Qed.

(** C10.  When the input is well-formed JSON but its value [v] is not an
    object, the process exits with code 1 and writes nothing to standard
    output; the error stream holds the generic form [Error: detail], the
    detail being that [v] has no [get] attribute, and not the
    [Invalid JSON input: detail] form of a parse failure. *)
Theorem not_object_exit stdin environ v :
json_load stdin = inl v →
is_dict v = false →
run stdin environ
= {| out := ""; err := "Error: " +:+ no_get v +:+ newline; exit_code := 1 |}
∧ (∀ detail,
     err (run stdin environ) ≠ "Invalid JSON input: " +:+ detail +:+ newline).
Proof.
  intros Hload Hv.
  pose proof (body_not_object _ json_dumps _ environ no_output _ Hload Hv) as Hbody.
  rewrite (run_exception _ _ _ _ _ _ Hbody eq_refl).
  split; [done|]. intros detail. discriminate.
Qed.

End Protocol.

(** ** Concrete invocations

    The script run with the [Demo] decoder and encoder on the request
    texts of the specification's scenarios and on the inputs that separate
    the amended statements from the unconditional ones. *)

Section Runs.

Local Abbreviation demo_run := (run Demo.load Demo.dumps).
Local Abbreviation text := Demo.json_text.

(** Scenario 1: alice may write to the production database. *)
Example run_alice_write :
demo_run (text "{'query':{'permission':'prod-db-write'},'env':{'operator':'alice'}}") ∅
= {| out := text "{'columns': ['operator', 'permission', 'allowed'], 'rows': [{'operator': 'alice', 'permission': 'prod-db-write', 'allowed': true}]}"
            +:+ newline;
     err := "";
     exit_code := 0 |}.
Proof. reflexivity. Qed.

(** Scenario 2: charlie may not. *)
Example run_charlie_write :
demo_run (text "{'query':{'permission':'prod-db-write'},'env':{'operator':'charlie'}}") ∅
= {| out := text "{'columns': ['operator', 'permission', 'allowed'], 'rows': [{'operator': 'charlie', 'permission': 'prod-db-write', 'allowed': false}]}"
            +:+ newline;
     err := "";
     exit_code := 0 |}.
Proof. reflexivity. Qed.

(** Scenario 3: no permission in the query. *)
Example run_no_permission :
demo_run (text "{'query':{},'env':{'operator':'alice'}}") ∅
= {| out := ""; err := "Missing 'permission' in query" +:+ newline; exit_code := 1 |}.
Proof. reflexivity. Qed.

(** Scenario 4: the input is not JSON. *)
Example run_not_a_document :
demo_run "not-a-document" ∅
= {| out := "";
     err := "Invalid JSON input: Expecting value: line 1 column 1 (char 0)" +:+ newline;
     exit_code := 1 |}.
Proof. reflexivity. Qed.

(** Scenario 5: no [env] in the request and no [USER] in the environment. *)
Example run_unknown_operator :
demo_run (text "{'query':{'permission':'deploy-prod'}}") ∅
= {| out := text "{'columns': ['operator', 'permission', 'allowed'], 'rows': [{'operator': 'unknown', 'permission': 'deploy-prod', 'allowed': false}]}"
            +:+ newline;
     err := "";
     exit_code := 0 |}.
Proof. reflexivity. Qed.

(** The same request run by bob, who may deploy to production. *)
Example run_user_bob :
demo_run (text "{'query':{'permission':'deploy-prod'}}") (<["USER" := "bob"]> ∅)
= {| out := text "{'columns': ['operator', 'permission', 'allowed'], 'rows': [{'operator': 'bob', 'permission': 'deploy-prod', 'allowed': true}]}"
            +:+ newline;
     err := "";
     exit_code := 0 |}.
Proof. reflexivity. Qed.

(** [success_response] on scenario 1. *)
Lemma success_response_witness :
demo_run (text "{'query':{'permission':'prod-db-write'},'env':{'operator':'alice'}}") ∅
= {| out := Demo.dumps (response (PyStr "alice") (PyStr "prod-db-write") true)
            +:+ newline;
     err := "";
     exit_code := 0 |}.
Proof.
  apply (success_response Demo.load Demo.dumps _ ∅
           [("query", PyDict [("permission", PyStr "prod-db-write")]);
            ("env", PyDict [("operator", PyStr "alice")])]
           [("permission", PyStr "prod-db-write")]
           [("operator", PyStr "alice")]
           (PyStr "prod-db-write") (PyStr "alice"));
    reflexivity.
Defined.

(** A request with a non-empty permission whose [env] is an array: line 37
    raises [AttributeError] and the invocation fails. *)
Lemma success_path_counterexample :
demo_run (text "{'query':{'permission':'prod-db-read'},'env':[]}") ∅
= {| out := "";
     err := "Error: 'list' object has no attribute 'get'" +:+ newline;
     exit_code := 1 |}
∧ ¬ success_path_unconditional Demo.load Demo.dumps
      (text "{'query':{'permission':'prod-db-read'},'env':[]}") ∅.
Proof.
  split; [reflexivity|].
  intros Hsuccess.
  destruct (Hsuccess _ _ _ eq_refl eq_refl eq_refl eq_refl) as (o & a & Hrun).
  apply (f_equal exit_code) in Hrun. discriminate Hrun.
Qed.

(** [missing_permission_exit] on scenario 3. *)
Lemma missing_permission_exit_witness :
demo_run (text "{'query':{},'env':{'operator':'alice'}}") ∅
= {| out := ""; err := "Missing 'permission' in query" +:+ newline; exit_code := 1 |}.
Proof.
  apply (proj2 (missing_permission_exit Demo.load Demo.dumps
                  (text "{'query':{},'env':{'operator':'alice'}}") ∅
                  [("query", PyDict []); ("env", PyDict [("operator", PyStr "alice")])]
                  [] eq_refl eq_refl eq_refl)
               [("operator", PyStr "alice")]).
  reflexivity.
Defined.

(** A request without permission whose [env] is an array: the diagnostic
    is the generic one. *)
Lemma missing_permission_counterexample :
demo_run (text "{'query':{},'env':[]}") ∅
= {| out := "";
     err := "Error: 'list' object has no attribute 'get'" +:+ newline;
     exit_code := 1 |}
∧ ¬ missing_permission_unconditional Demo.load Demo.dumps
      (text "{'query':{},'env':[]}") ∅.
Proof.
  split; [reflexivity|].
  intros Hmissing.
  specialize (Hmissing _ _ eq_refl eq_refl eq_refl).
  apply (f_equal err) in Hmissing. discriminate Hmissing.
Qed.



(** [unknown_operator_denied] for mallory, who is not in [PERMISSIONS]. *)
Lemma unknown_operator_denied_witness :
resolve PERMISSIONS (PyStr "mallory") (PyStr "prod-db-read") no_output
= (no_output, Return false)
∧ demo_run (text "{'query':{'permission':'prod-db-read'},'env':{'operator':'mallory'}}") ∅
  = {| out := Demo.dumps (response (PyStr "mallory") (PyStr "prod-db-read") false)
              +:+ newline;
       err := "";
       exit_code := 0 |}.
Proof.
  destruct (unknown_operator_denied Demo.load Demo.dumps
              "mallory" (PyStr "prod-db-read")) as [Hresolve Hrun].
  split.
  - apply Hresolve. reflexivity.
  - apply (Hrun eq_refl
             (text "{'query':{'permission':'prod-db-read'},'env':{'operator':'mallory'}}")
             ∅
             [("query", PyDict [("permission", PyStr "prod-db-read")]);
              ("env", PyDict [("operator", PyStr "mallory")])]
             [("permission", PyStr "prod-db-read")]
             [("operator", PyStr "mallory")]);
      reflexivity.
Defined.

(** [failures_exit_one] on a request whose operator is an array: the store
    lookup raises [TypeError]. *)
Lemma failures_exit_one_witness :
demo_run (text "{'query':{'permission':'prod-db-read'},'env':{'operator':['alice']}}") ∅
= {| out := ""; err := "Error: unhashable type: 'list'" +:+ newline; exit_code := 1 |}.
Proof.
  apply (proj1 (failures_exit_one Demo.load Demo.dumps
                  (text "{'query':{'permission':'prod-db-read'},'env':{'operator':['alice']}}")
                  ∅)
               no_output (TypeError "unhashable type: 'list'"));
    reflexivity.
Defined.

(** [same_input_same_result] for two environments that differ outside
    [USER]. *)
Lemma same_input_same_result_witness :
demo_run (text "{'query':{'permission':'deploy-prod'}}")
         (<["HOME" := "/home/bob"]> (<["USER" := "bob"]> ∅))
= demo_run (text "{'query':{'permission':'deploy-prod'}}") (<["USER" := "bob"]> ∅).
Proof.
  apply (same_input_same_result Demo.load Demo.dumps); reflexivity.
Defined.

(** [empty_permission_exit] on a request whose permission is the empty
    string. *)
Lemma empty_permission_exit_witness :
demo_run (text "{'query':{'permission':''},'env':{'operator':'alice'}}") ∅
= {| out := ""; err := "Missing 'permission' in query" +:+ newline; exit_code := 1 |}
∧ demo_run (text "{'query':{},'env':{'operator':'alice'}}") ∅
  = demo_run (text "{'query':{'permission':''},'env':{'operator':'alice'}}") ∅.
Proof.
  destruct (empty_permission_exit Demo.load Demo.dumps
              (text "{'query':{'permission':''},'env':{'operator':'alice'}}") ∅
              [("query", PyDict [("permission", PyStr "")]);
               ("env", PyDict [("operator", PyStr "alice")])]
              [("permission", PyStr "")] eq_refl eq_refl eq_refl)
    as (_ & Hfixed & Hsame).
  split.
  - apply (Hfixed [("operator", PyStr "alice")]). reflexivity.
  - apply (Hsame (text "{'query':{},'env':{'operator':'alice'}}")
             [("query", PyDict []); ("env", PyDict [("operator", PyStr "alice")])]
             []);
      reflexivity.
Defined.

(** An empty permission in a request whose [env] is an array: the
    diagnostic is the generic one. *)
Lemma empty_permission_counterexample :
demo_run (text "{'query':{'permission':''},'env':[]}") ∅
= {| out := "";
     err := "Error: 'list' object has no attribute 'get'" +:+ newline;
     exit_code := 1 |}
∧ ¬ empty_permission_unconditional Demo.load Demo.dumps
      (text "{'query':{'permission':''},'env':[]}") ∅.
Proof.
  split; [reflexivity|].
  intros Hempty.
  specialize (Hempty _ _ eq_refl eq_refl eq_refl).
  apply (f_equal err) in Hempty. discriminate Hempty.
Qed.

(** [not_object_exit] on an array. *)
Lemma not_object_exit_witness :
demo_run "[1, 2]" ∅
= {| out := "";
     err := "Error: 'list' object has no attribute 'get'" +:+ newline;
     exit_code := 1 |}
∧ (∀ detail,
     err (demo_run "[1, 2]" ∅) ≠ "Invalid JSON input: " +:+ detail +:+ newline).
Proof.
  apply (not_object_exit Demo.load Demo.dumps "[1, 2]" ∅ (PyList [PyInt 1; PyInt 2]));
    reflexivity.
Defined.

End Runs.

(** ** Further behaviour of the script *)

(** *** The permission table *)

(** The keys of [PERMISSIONS]. *)
Lemma PERMISSIONS_lookup (o : string) :
  PERMISSIONS !! o
  = if decide (o = "charlie") then Some ["prod-db-read"]
    else if decide (o = "bob")
         then Some ["prod-db-read"; "deploy-staging"; "deploy-prod"]
    else if decide (o = "alice")
         then Some ["prod-db-read"; "prod-db-write"; "deploy-staging"]
    else None.
Proof.
  unfold PERMISSIONS.
  rewrite !lookup_insert, lookup_empty.
  repeat case_decide; congruence.
Qed.

Lemma granted_strings (o p : string) :
  contains (granted_to PERMISSIONS (PyStr o)) (PyStr p) = true ↔ (o, p) ∈ grants.
Proof.
  cbn [contains granted_to].
  rewrite existsb_eqb_elem_of, bool_decide_eq_true, PERMISSIONS_lookup.
  unfold grants. rewrite !elem_of_cons, elem_of_nil.
  repeat case_decide; subst; cbn [default from_option id];
    rewrite ?elem_of_cons, ?elem_of_nil; intuition (simplify_eq; auto 10).
Qed.

(** X1.  The resolution step against [PERMISSIONS] returns [True] exactly
    for the seven (operator, permission) pairs of the table: both values
    must be strings and the pair must be one of [grants].  Nothing else is
    ever granted. *)
Theorem resolve_grants_exactly (operator permission : pyval) s :
  resolve PERMISSIONS operator permission s = (s, Return true)
  ↔ ∃ o p, operator = PyStr o ∧ permission = PyStr p ∧ (o, p) ∈ grants.
Proof.
  destruct (hashable operator) eqn:Hhash.
  - rewrite resolve_hashable by done. split.
    + intros [= Hgranted].
      destruct operator as [| | | |o| |]; try (by destruct permission).
      destruct permission as [| | | |p| |]; try done.
      exists o, p. by rewrite <- granted_strings.
    + intros (o & p & -> & -> & Hin). by rewrite (proj2 (granted_strings o p) Hin).
  - rewrite resolve_unhashable by done. split; [done|].
    by intros (o & p & -> & _).
Qed.

(** *** Requests of other shapes *)

Section Edges.

Variable json_load : string → pyval + exn.
Variable json_dumps : pyval → string.

Local Abbreviation run := (run json_load json_dumps).
Local Abbreviation main_body := (main_body json_load json_dumps).

(** An invocation is determined by how its [try] block ends. *)
Lemma run_of_body stdin1 stdin2 environ1 environ2 :
main_body stdin1 environ1 no_output = main_body stdin2 environ2 no_output →
run stdin1 environ1 = run stdin2 environ2.
Proof. intros H. unfold run, main, try_except. by rewrite H. Qed.

(** The values [if not permission] rejects. *)
Lemma truthy_false (v : pyval) :
truthy v = false
↔ v = PyNone ∨ v = PyBool false ∨ v = PyInt 0 ∨ (∃ sign, v = PyFloat (S754_zero sign))
  ∨ v = PyStr "" ∨ v = PyList [] ∨ v = PyDict [].
Proof.
  split.
  - destruct v as [|[]|n|[]|[]|[]|[]]; cbn; try done; eauto 10.
    intros Hn. apply negb_false_iff, Z.eqb_eq in Hn. subst. eauto.
  - intros [->|[->|[->|[[sign ->]|[->|[->| ->]]]]]]; done.
Qed.

(** X2.  When the input is an object whose [query] entry is not a mapping,
    line 36 raises [AttributeError]: the process writes
    [Error: '<type>' object has no attribute 'get'] to the error stream,
    nothing to standard output, and exits with code 1, whatever [env]
    holds. *)
Theorem query_not_mapping_exit stdin environ d :
json_load stdin = inl (PyDict d) →
is_dict (entry d "query") = false →
run stdin environ
= {| out := "";
     err := "Error: " +:+ no_get (entry d "query") +:+ newline;
     exit_code := 1 |}.
Proof.
  intros Hload Hq.
  pose proof (body_query_not_dict _ json_dumps _ environ no_output _ Hload Hq) as Hbody.
  rewrite (run_exception _ _ _ _ _ _ Hbody eq_refl). reflexivity.
Qed.

(** X3.  When the input is an object whose [query] is a mapping and whose
    [env] entry is not a mapping, line 37 raises [AttributeError] before
    the permission is looked at: whether the permission is valid, empty or
    missing, the process writes
    [Error: '<type>' object has no attribute 'get'] to the error stream,
    nothing to standard output, and exits with code 1. *)
Theorem env_not_mapping_exit stdin environ d q :
json_load stdin = inl (PyDict d) →
entry d "query" = PyDict q →
is_dict (entry d "env") = false →
run stdin environ
= {| out := "";
     err := "Error: " +:+ no_get (entry d "env") +:+ newline;
     exit_code := 1 |}.
Proof.
  intros Hload Hq He.
  pose proof (body_env_not_dict _ json_dumps _ environ no_output _ _ Hload Hq He) as Hbody.
  rewrite (run_exception _ _ _ _ _ _ Hbody eq_refl). reflexivity.
Qed.

(** X4.  When the resolved operator is an array or an object, the store
    lookup of line 43 raises [TypeError], but only for a request that
    passed the permission check of line 39: with a truthy permission the
    process writes [Error: unhashable type: '<type>'] and exits with
    code 1; with a missing or falsy permission it writes the fixed
    [Missing 'permission' in query] diagnostic instead. *)
Theorem unhashable_operator_exit stdin environ d q e o :
json_load stdin = inl (PyDict d) →
entry d "query" = PyDict q →
entry d "env" = PyDict e →
operator_chain (dict_lookup e "operator") (environ !! "USER") = o →
hashable o = false →
run stdin environ
= if truthy (default PyNone (dict_lookup q "permission"))
  then {| out := "";
          err := "Error: " +:+ unhashable o +:+ newline;
          exit_code := 1 |}
  else {| out := "";
          err := "Missing 'permission' in query" +:+ newline;
          exit_code := 1 |}.
Proof.
  intros Hload Hq He Ho Hhash.
  destruct (truthy (default PyNone (dict_lookup q "permission"))) eqn:Hp.
  - pose proof (body_unhashable _ json_dumps _ _ no_output _ _ _ _ _
                  Hload Hq He eq_refl Ho Hp Hhash) as Hbody.
    rewrite (run_exception _ _ _ _ _ _ Hbody eq_refl). reflexivity.
  - by rewrite (run_missing _ json_dumps _ environ _ _ _ _ Hload Hq He eq_refl Hp).
Qed.

(** X5.  For a request object whose [query] and [env] are mappings, the
    process ends with the fixed [Missing 'permission' in query] diagnostic
    exactly when [query.permission] is absent or is one of the falsy values
    [null], [false], [0], [0.0] or [-0.0], the empty string, the empty
    array, the empty object. *)
Theorem missing_iff_falsy stdin environ d q e :
json_load stdin = inl (PyDict d) →
entry d "query" = PyDict q →
entry d "env" = PyDict e →
run stdin environ
= {| out := ""; err := "Missing 'permission' in query" +:+ newline; exit_code := 1 |}
↔ dict_lookup q "permission" = None
  ∨ dict_lookup q "permission" = Some PyNone
  ∨ dict_lookup q "permission" = Some (PyBool false)
  ∨ dict_lookup q "permission" = Some (PyInt 0)
  ∨ (∃ sign, dict_lookup q "permission" = Some (PyFloat (S754_zero sign)))
  ∨ dict_lookup q "permission" = Some (PyStr "")
  ∨ dict_lookup q "permission" = Some (PyList [])
  ∨ dict_lookup q "permission" = Some (PyDict []).
Proof.
  intros Hload Hq He.
  set (p := default PyNone (dict_lookup q "permission")).
  set (o := operator_chain (dict_lookup e "operator") (environ !! "USER")).
  assert (Hfalsy : truthy p = false
                   ↔ dict_lookup q "permission" = None
                     ∨ dict_lookup q "permission" = Some PyNone
                     ∨ dict_lookup q "permission" = Some (PyBool false)
                     ∨ dict_lookup q "permission" = Some (PyInt 0)
                     ∨ (∃ sign, dict_lookup q "permission" = Some (PyFloat (S754_zero sign)))
                     ∨ dict_lookup q "permission" = Some (PyStr "")
                     ∨ dict_lookup q "permission" = Some (PyList [])
                     ∨ dict_lookup q "permission" = Some (PyDict [])).
  { rewrite truthy_false. subst p.
    destruct (dict_lookup q "permission") as [v|]; cbn [default from_option id].
    - split.
      + intros [->|[->|[->|[[sign ->]|[->|[->| ->]]]]]]; eauto 10.
      + intros [?|[?|[?|[?|[[sign ?]|[?|[?|?]]]]]]]; simplify_eq; eauto 10.
    - split; [by left | by left]. }
  rewrite <- Hfalsy. split.
  - intros Hrun. destruct (truthy p) eqn:Hp; [|done].
    destruct (hashable o) eqn:Hhash.
    + rewrite (run_success _ json_dumps _ environ _ _ _ _ _
                 Hload Hq He eq_refl eq_refl Hp Hhash) in Hrun.
      discriminate Hrun.
    + pose proof (body_unhashable _ json_dumps _ _ no_output _ _ _ _ _
                    Hload Hq He eq_refl eq_refl Hp Hhash) as Hbody.
      rewrite (run_exception _ _ _ _ _ _ Hbody eq_refl) in Hrun.
      apply (f_equal err) in Hrun. discriminate Hrun.
  - intros Hp. by apply (run_missing _ json_dumps _ environ d q e p).
Qed.

(** X6.  A permission or an operator that is not a string is not rejected:
    when the permission is truthy and the operator hashable but one of the
    two is not a string (a number, [true], [null] as operator, a non-empty
    array as permission), the process answers with the normal response,
    echoing both values as received, with [allowed] false, and exits with
    code 0. *)
Theorem non_string_denied stdin environ d q e p o :
json_load stdin = inl (PyDict d) →
entry d "query" = PyDict q →
dict_lookup q "permission" = Some p →
truthy p = true →
entry d "env" = PyDict e →
operator_chain (dict_lookup e "operator") (environ !! "USER") = o →
hashable o = true →
is_str o && is_str p = false →
run stdin environ
= {| out := json_dumps (response o p false) +:+ newline;
     err := "";
     exit_code := 0 |}.
Proof.
  intros Hload Hq Hp Htrue He Ho Hhash Hstr.
  assert (Hdflt : default PyNone (dict_lookup q "permission") = p) by by rewrite Hp.
  rewrite (run_success _ json_dumps _ _ _ _ _ _ _ Hload Hq He Hdflt Ho Htrue Hhash).
  assert (contains (granted_to PERMISSIONS o) p = false) as ->; [|done].
  destruct o; by destruct p.
Qed.

(** X7.  Every invocation ends in one of two ways: exit code 0 with one
    response document on standard output and nothing on the error stream,
    or exit code 1 with one diagnostic on the error stream and nothing on
    standard output.  No other exit code occurs and the two streams are
    never both written. *)
Theorem one_stream_per_invocation stdin environ :
(exit_code (run stdin environ) = 0
 ∧ err (run stdin environ) = ""
 ∧ ∃ o p a, out (run stdin environ) = json_dumps (response o p a) +:+ newline)
∨ (exit_code (run stdin environ) = 1
   ∧ out (run stdin environ) = ""
   ∧ ∃ diagnostic, err (run stdin environ) = diagnostic +:+ newline).
Proof.
  destruct (run_cases json_load json_dumps stdin environ)
    as [(o & p & a & _ & H)|[H|[(detail & _ & H)|(detail & H)]]]; rewrite H.
  - left. split; [done|]. split; [done|]. by exists o, p, a.
  - right. split; [done|]. split; [done|]. by eexists.
  - right. split; [done|]. split; [done|]. by eexists.
  - right. split; [done|]. split; [done|]. by eexists.
Qed.


(** X9.  Only [query.permission] and [env.operator] are read: two request
    objects whose [query] and [env] are mappings and which agree on these
    two entries end the same way, whatever other entries either of them
    holds at any level and in whatever order. *)
Theorem unread_entries_ignored stdin1 stdin2 environ d1 d2 q1 q2 e1 e2 :
json_load stdin1 = inl (PyDict d1) →
json_load stdin2 = inl (PyDict d2) →
entry d1 "query" = PyDict q1 →
entry d2 "query" = PyDict q2 →
entry d1 "env" = PyDict e1 →
entry d2 "env" = PyDict e2 →
dict_lookup q1 "permission" = dict_lookup q2 "permission" →
dict_lookup e1 "operator" = dict_lookup e2 "operator" →
run stdin1 environ = run stdin2 environ.
Proof.
  intros Hload1 Hload2 Hq1 Hq2 He1 He2 Hp Ho. apply run_of_body.
  rewrite (body_request _ json_dumps _ environ _ _ _ _ _ _ Hload1 Hq1 He1 eq_refl eq_refl).
  rewrite (body_request _ json_dumps _ environ _ _ _ _ _ _ Hload2 Hq2 He2 eq_refl eq_refl).
  by rewrite Hp, Ho.
Qed.

End Edges.

(** *** Concrete invocations on requests of other shapes *)

Section EdgeRuns.

Local Abbreviation edge_run := (run Edge.load Demo.dumps).
Local Abbreviation text := Demo.json_text.

(** [query_not_mapping_exit]: [query] is an array. *)
Lemma query_not_mapping_exit_witness :
edge_run (text "{'query':[],'env':{'operator':'alice'}}") ∅
= {| out := "";
     err := "Error: 'list' object has no attribute 'get'" +:+ newline;
     exit_code := 1 |}.
Proof.
  apply (query_not_mapping_exit Edge.load Demo.dumps
           (text "{'query':[],'env':{'operator':'alice'}}") ∅
           [("query", PyList []); ("env", PyDict [("operator", PyStr "alice")])]);
    reflexivity.
Defined.

(** [env_not_mapping_exit]: [env] is a string, the permission is valid. *)
Lemma env_not_mapping_exit_witness :
edge_run (text "{'query':{'permission':'prod-db-read'},'env':'alice'}") ∅
= {| out := "";
     err := "Error: 'str' object has no attribute 'get'" +:+ newline;
     exit_code := 1 |}.
Proof.
  apply (env_not_mapping_exit Edge.load Demo.dumps
           (text "{'query':{'permission':'prod-db-read'},'env':'alice'}") ∅
           [("query", PyDict [("permission", PyStr "prod-db-read")]);
            ("env", PyStr "alice")]
           [("permission", PyStr "prod-db-read")]);
    reflexivity.
Defined.

(** [unhashable_operator_exit]: the operator is an array and the permission
    is missing, so the validation diagnostic comes first. *)
Lemma unhashable_operator_exit_witness :
edge_run (text "{'query':{},'env':{'operator':['alice']}}") ∅
= {| out := ""; err := "Missing 'permission' in query" +:+ newline; exit_code := 1 |}.
Proof.
  apply (unhashable_operator_exit Edge.load Demo.dumps
           (text "{'query':{},'env':{'operator':['alice']}}") ∅
           [("query", PyDict []); ("env", PyDict [("operator", PyList [PyStr "alice"])])]
           []
           [("operator", PyList [PyStr "alice"])]
           (PyList [PyStr "alice"]));
    reflexivity.
Defined.

(** [missing_iff_falsy]: a permission of [0] is reported as missing. *)
Lemma missing_iff_falsy_witness :
edge_run (text "{'query':{'permission':0},'env':{'operator':'alice'}}") ∅
= {| out := ""; err := "Missing 'permission' in query" +:+ newline; exit_code := 1 |}.
Proof.
  apply (missing_iff_falsy Edge.load Demo.dumps
           (text "{'query':{'permission':0},'env':{'operator':'alice'}}") ∅
           [("query", PyDict [("permission", PyInt 0)]);
            ("env", PyDict [("operator", PyStr "alice")])]
           [("permission", PyInt 0)]
           [("operator", PyStr "alice")] eq_refl eq_refl eq_refl).
  do 3 right. left. reflexivity.
Defined.

(** [non_string_denied]: a permission of [5] is answered, not rejected. *)
Lemma non_string_denied_witness :
edge_run (text "{'query':{'permission':5},'env':{'operator':'alice'}}") ∅
= {| out := text "{'columns': ['operator', 'permission', 'allowed'], 'rows': [{'operator': 'alice', 'permission': 5, 'allowed': false}]}"
            +:+ newline;
     err := "";
     exit_code := 0 |}.
Proof.
  apply (non_string_denied Edge.load Demo.dumps
           (text "{'query':{'permission':5},'env':{'operator':'alice'}}") ∅
           [("query", PyDict [("permission", PyInt 5)]);
            ("env", PyDict [("operator", PyStr "alice")])]
           [("permission", PyInt 5)]
           [("operator", PyStr "alice")]
           (PyInt 5) (PyStr "alice"));
    reflexivity.
Defined.


(** [unread_entries_ignored]: scenario 1 with three entries the script does
    not read. *)
Lemma unread_entries_ignored_witness :
edge_run (text "{'id':7,'query':{'permission':'prod-db-write','limit':10},'env':{'trace':true,'operator':'alice'}}") ∅
= edge_run (text "{'query':{'permission':'prod-db-write'},'env':{'operator':'alice'}}") ∅.
Proof.
  apply (unread_entries_ignored Edge.load Demo.dumps
           (text "{'id':7,'query':{'permission':'prod-db-write','limit':10},'env':{'trace':true,'operator':'alice'}}")
           (text "{'query':{'permission':'prod-db-write'},'env':{'operator':'alice'}}")
           ∅
           [("id", PyInt 7);
            ("query", PyDict [("permission", PyStr "prod-db-write"); ("limit", PyInt 10)]);
            ("env", PyDict [("trace", PyBool true); ("operator", PyStr "alice")])]
           [("query", PyDict [("permission", PyStr "prod-db-write")]);
            ("env", PyDict [("operator", PyStr "alice")])]
           [("permission", PyStr "prod-db-write"); ("limit", PyInt 10)]
           [("permission", PyStr "prod-db-write")]
           [("trace", PyBool true); ("operator", PyStr "alice")]
           [("operator", PyStr "alice")]);
    reflexivity.
Defined.

End EdgeRuns.
